(** * retrieval_graph.configuration: the configurable parameters of the agent

    A shallow embedding of [src/retrieval_graph/configuration.py].  The two
    dataclasses [IndexConfiguration] and [Configuration] are modelled the way
    Python runs them: an instance is its attribute dictionary, the generated
    [__init__] stores one attribute per keyword (the argument when it is
    passed, the field default otherwise) and then runs [__post_init__], which
    reads and overwrites attributes and consults [os.environ].  Attribute
    reads can raise [AttributeError], so "construction does not raise" is a
    statement to be proved and not a by-product of the encoding. *)

From stdpp Require Import gmap strings.

Open Scope string_scope.

(** ** Python values *)

(** The values that reach the configuration: the annotated field types are
    [str] and [dict[str, Any]]; [None], booleans and integers stand for the
    [Any] payload of [search_kwargs] and for what an untyped caller may pass. *)
#[warnings="-register-all"]
Inductive PyVal : Type :=
  | VNone
  | VBool (b : bool)
  | VInt (n : Z)
  | VStr (s : string)
  | VDict (d : gmap string PyVal).

(** [bool(v)], as used by [not self.user_id]. *)
Definition truthy (v : PyVal) : bool :=
  match v with
  | VNone => false
  | VBool b => b
  | VInt n => negb (n =? 0)%Z
  | VStr s => negb (String.eqb s "")
  | VDict d => negb (bool_decide (dom d = ∅))
  end.

(** [v == "lit"] for a string literal on the right: true exactly for the
    string with the same characters. *)
Definition str_eq (v : PyVal) (lit : string) : bool :=
  match v with
  | VStr s => String.eqb s lit
  | _ => false
  end.

(** ** The process environment *)

(** [os.environ.get(key, default)]: the environment maps names to strings. *)
Definition environ_get (environ : gmap string string) (key dflt : string) : string :=
  match environ !! key with
  | Some v => v
  | None => dflt
  end.

(** ** Exceptions and the instance monad *)

Inductive PyExc : Type :=
  | AttributeError (name : string).

(** A method body: a computation over the attribute dictionary of [self]
    that either raises or returns a value and the updated dictionary. *)
Definition Py (A : Type) : Type :=
  gmap string PyVal → PyExc + (A * gmap string PyVal).

#[global] Instance Py_ret : MRet Py := λ A x self, inr (x, self).

#[global] Instance Py_bind : MBind Py := λ A B f m self,
  match m self with
  | inl e => inl e
  | inr (x, self') => f x self'
  end.

(** [self.name] *)
Definition getattr (name : string) : Py PyVal := λ self,
  match self !! name with
  | Some v => inr (v, self)
  | None => inl (AttributeError name)
  end.

(** [self.name = v] *)
Definition setattr (name : string) (v : PyVal) : Py unit := λ self,
  inr (tt, <[name := v]> self).

(** [if b: body] with no [else]. *)
Definition when (b : bool) (body : Py unit) : Py unit :=
  if b then body else mret tt.

(** Calling a class with keywords: run [__init__] on a fresh instance and
    hand the instance back. *)
Definition instantiate (init : Py unit) : PyExc + gmap string PyVal :=
  match init ∅ with
  | inl e => inl e
  | inr (_, self) => inr self
  end.

(** Reading a field off the outcome of a construction; [None] when the
    construction raised or the attribute does not exist. *)
Definition field (name : string) (r : PyExc + gmap string PyVal) : option PyVal :=
  match r with
  | inl _ => None
  | inr self => self !! name
  end.

(** ** [prompts]: the two template constants imported by the module.  The
    module itself is not part of the sources at hand, so its constants are
    taken as parameters. *)
Record Prompts : Type := {
  RESPONSE_SYSTEM_PROMPT : string;
  QUERY_SYSTEM_PROMPT : string
}.

(** ** class IndexConfiguration *)

Module IndexConfiguration.

(** The keyword-only arguments of the generated [__init__]; [None] is an
    omitted keyword.  A keyword that names no field is refused by the call
    before any code of the class runs, and the record has no place for one. *)
Record kwargs : Type := {
  user_id : option PyVal;
  embedding_model : option PyVal;
  retriever_provider : option PyVal;
  search_kwargs : option PyVal
}.

Definition no_kwargs : kwargs :=
  {| user_id := None; embedding_model := None;
     retriever_provider := None; search_kwargs := None |}.

(** The keywords [kw] with [user_id], resp. [retriever_provider], passed
    as [o] instead. *)
Definition with_user_id (o : option PyVal) (kw : kwargs) : kwargs :=
  {| user_id := o; embedding_model := embedding_model kw;
     retriever_provider := retriever_provider kw;
     search_kwargs := search_kwargs kw |}.

Definition with_retriever_provider (o : option PyVal) (kw : kwargs) : kwargs :=
  {| user_id := user_id kw; embedding_model := embedding_model kw;
     retriever_provider := o; search_kwargs := search_kwargs kw |}.

(** The [Literal[...]] annotation of [retriever_provider]. *)
Definition retriever_provider_Literal : list string :=
  ["elastic"; "elastic-local"; "pinecone"; "mongodb"].

Definition __post_init__ (environ : gmap string string) : Py unit :=
  v ← getattr "user_id";
  when (negb (truthy v))
    (setattr "user_id" (VStr (environ_get environ "USER_ID" ""))) ;;
  v ← getattr "embedding_model";
  when (str_eq v "openai/text-embedding-3-small")
    (setattr "embedding_model"
       (VStr (environ_get environ "EMBEDDING_MODEL" "openai/text-embedding-3-small"))) ;;
  v ← getattr "retriever_provider";
  when (str_eq v "elastic")
    (setattr "retriever_provider"
       (VStr (environ_get environ "RETRIEVER_PROVIDER" "elastic"))).

(** The field part of the dataclass-generated [__init__]:
    [default=...] for the three strings, [default_factory=dict] for
    [search_kwargs]. *)
Definition set_fields (kw : kwargs) : Py unit :=
  setattr "user_id" (default (VStr "") (user_id kw)) ;;
  setattr "embedding_model"
    (default (VStr "openai/text-embedding-3-small") (embedding_model kw)) ;;
  setattr "retriever_provider" (default (VStr "elastic") (retriever_provider kw)) ;;
  setattr "search_kwargs" (default (VDict ∅) (search_kwargs kw)).

Definition __init__ (environ : gmap string string) (kw : kwargs) : Py unit :=
  set_fields kw ;; __post_init__ environ.

(** Calling [IndexConfiguration] with the keywords [kw]. *)
Definition new (environ : gmap string string) (kw : kwargs)
  : PyExc + gmap string PyVal :=
  instantiate (__init__ environ kw).

End IndexConfiguration.

(** ** class Configuration(IndexConfiguration) *)

Module Configuration.

Record kwargs : Type := {
  user_id : option PyVal;
  embedding_model : option PyVal;
  retriever_provider : option PyVal;
  search_kwargs : option PyVal;
  response_system_prompt : option PyVal;
  response_model : option PyVal;
  query_system_prompt : option PyVal;
  query_model : option PyVal
}.

Definition no_kwargs : kwargs :=
  {| user_id := None; embedding_model := None; retriever_provider := None;
     search_kwargs := None; response_system_prompt := None;
     response_model := None; query_system_prompt := None;
     query_model := None |}.

Definition with_user_id (o : option PyVal) (kw : kwargs) : kwargs :=
  {| user_id := o; embedding_model := embedding_model kw;
     retriever_provider := retriever_provider kw;
     search_kwargs := search_kwargs kw;
     response_system_prompt := response_system_prompt kw;
     response_model := response_model kw;
     query_system_prompt := query_system_prompt kw;
     query_model := query_model kw |}.

Definition with_retriever_provider (o : option PyVal) (kw : kwargs) : kwargs :=
  {| user_id := user_id kw; embedding_model := embedding_model kw;
     retriever_provider := o;
     search_kwargs := search_kwargs kw;
     response_system_prompt := response_system_prompt kw;
     response_model := response_model kw;
     query_system_prompt := query_system_prompt kw;
     query_model := query_model kw |}.

(** The inherited keywords, as the base class receives them. *)
Definition base (kw : kwargs) : IndexConfiguration.kwargs :=
  {| IndexConfiguration.user_id := user_id kw;
     IndexConfiguration.embedding_model := embedding_model kw;
     IndexConfiguration.retriever_provider := retriever_provider kw;
     IndexConfiguration.search_kwargs := search_kwargs kw |}.

(** Keywords of the base class only, the added ones omitted. *)
Definition of_base (kw : IndexConfiguration.kwargs) : kwargs :=
  {| user_id := IndexConfiguration.user_id kw;
     embedding_model := IndexConfiguration.embedding_model kw;
     retriever_provider := IndexConfiguration.retriever_provider kw;
     search_kwargs := IndexConfiguration.search_kwargs kw;
     response_system_prompt := None; response_model := None;
     query_system_prompt := None; query_model := None |}.

Definition __post_init__ (environ : gmap string string) : Py unit :=
  IndexConfiguration.__post_init__ environ ;;
  v ← getattr "response_model";
  when (str_eq v "anthropic/claude-3-5-sonnet-20240620")
    (setattr "response_model"
       (VStr (environ_get environ "RESPONSE_MODEL" "anthropic/claude-3-5-sonnet-20240620"))) ;;
  v ← getattr "query_model";
  when (str_eq v "anthropic/claude-3-haiku-20240307")
    (setattr "query_model"
       (VStr (environ_get environ "QUERY_MODEL" "anthropic/claude-3-haiku-20240307"))).

Section WithPrompts.
Variable prompts : Prompts.

(** Inherited fields first, then the fields of this class, in
    declaration order. *)
Definition set_fields (kw : kwargs) : Py unit :=
  IndexConfiguration.set_fields (base kw) ;;
  setattr "response_system_prompt"
    (default (VStr (RESPONSE_SYSTEM_PROMPT prompts)) (response_system_prompt kw)) ;;
  setattr "response_model"
    (default (VStr "anthropic/claude-3-5-sonnet-20240620") (response_model kw)) ;;
  setattr "query_system_prompt"
    (default (VStr (QUERY_SYSTEM_PROMPT prompts)) (query_system_prompt kw)) ;;
  setattr "query_model"
    (default (VStr "anthropic/claude-3-haiku-20240307") (query_model kw)).

Definition __init__ (environ : gmap string string) (kw : kwargs) : Py unit :=
  set_fields kw ;; __post_init__ environ.

(** Calling [Configuration] with the keywords [kw]. *)
Definition new (environ : gmap string string) (kw : kwargs)
  : PyExc + gmap string PyVal :=
  instantiate (__init__ environ kw).

End WithPrompts.

End Configuration.

(** ** The environment-bound fields *)

(** The five fields that [__post_init__] may fill from [os.environ], with
    the attribute name, the variable read and the default literal that the
    source pairs with each. *)
Inductive EnvField : Type :=
  | F_user_id
  | F_embedding_model
  | F_retriever_provider
  | F_response_model
  | F_query_model.

Definition attr_name (f : EnvField) : string :=
  match f with
  | F_user_id => "user_id"
  | F_embedding_model => "embedding_model"
  | F_retriever_provider => "retriever_provider"
  | F_response_model => "response_model"
  | F_query_model => "query_model"
  end.

Definition env_var (f : EnvField) : string :=
  match f with
  | F_user_id => "USER_ID"
  | F_embedding_model => "EMBEDDING_MODEL"
  | F_retriever_provider => "RETRIEVER_PROVIDER"
  | F_response_model => "RESPONSE_MODEL"
  | F_query_model => "QUERY_MODEL"
  end.

Definition builtin_default (f : EnvField) : string :=
  match f with
  | F_user_id => ""
  | F_embedding_model => "openai/text-embedding-3-small"
  | F_retriever_provider => "elastic"
  | F_response_model => "anthropic/claude-3-5-sonnet-20240620"
  | F_query_model => "anthropic/claude-3-haiku-20240307"
  end.

(** The keyword a caller passes for the field. *)
Definition kwarg (f : EnvField) (kw : Configuration.kwargs) : option PyVal :=
  match f with
  | F_user_id => Configuration.user_id kw
  | F_embedding_model => Configuration.embedding_model kw
  | F_retriever_provider => Configuration.retriever_provider kw
  | F_response_model => Configuration.response_model kw
  | F_query_model => Configuration.query_model kw
  end.

(** ** Precedence rules, as statements about a single field *)

(** Explicit value, else environment value, else built-in default: the
    rule in which every supplied keyword counts as explicit. *)
Definition precedence (explicit : option PyVal) (env_value : option string)
    (dflt : PyVal) : PyVal :=
  match explicit with
  | Some v => v
  | None =>
      match env_value with
      | Some x => VStr x
      | None => dflt
      end
  end.

(** Whether [__post_init__] takes the value it finds in the field for an
    explicit one: a true value for [user_id], a value other than the default
    literal for the rest. *)
Definition kept (f : EnvField) (v : PyVal) : bool :=
  match f with
  | F_user_id => truthy v
  | _ => negb (str_eq v (builtin_default f))
  end.

(** The same rule with "explicit" read the way the code reads it: a
    supplied keyword that is not [kept] is treated as omitted. *)
Definition precedence_by_value (f : EnvField) (explicit : option PyVal)
    (env_value : option string) : PyVal :=
  match explicit with
  | Some v =>
      if kept f v then v
      else precedence None env_value (VStr (builtin_default f))
  | None => precedence None env_value (VStr (builtin_default f))
  end.

(** The invariant read literally: in every field of the instance built
    from [kw] under [environ], a supplied keyword beats the environment and
    the environment beats the built-in default; the three fields without a
    variable have no environment value. *)
Definition follows_precedence (prompts : Prompts) (environ : gmap string string)
    (kw : Configuration.kwargs) : Prop :=
  (∀ f : EnvField,
     field (attr_name f) (Configuration.new prompts environ kw) =
     Some (precedence (kwarg f kw) (environ !! env_var f)
             (VStr (builtin_default f)))) ∧
  field "search_kwargs" (Configuration.new prompts environ kw) =
    Some (precedence (Configuration.search_kwargs kw) None (VDict ∅)) ∧
  field "response_system_prompt" (Configuration.new prompts environ kw) =
    Some (precedence (Configuration.response_system_prompt kw) None
            (VStr (RESPONSE_SYSTEM_PROMPT prompts))) ∧
  field "query_system_prompt" (Configuration.new prompts environ kw) =
    Some (precedence (Configuration.query_system_prompt kw) None
            (VStr (QUERY_SYSTEM_PROMPT prompts))).

(** ** States reached while an instance is built *)

(** The state a conditional overwrite [if b: self.name = w] leaves. *)
Definition overwrite_if (b : bool) (name : string) (w : PyVal)
    (self : gmap string PyVal) : gmap string PyVal :=
  if b then <[name := w]> self else self.

(** The instance after the three steps of
    [IndexConfiguration.__post_init__], given the values [u], [e], [r] the
    steps read. *)
Definition index_defaulted (environ : gmap string string) (u e r : PyVal)
    (self : gmap string PyVal) : gmap string PyVal :=
  overwrite_if (str_eq r "elastic") "retriever_provider"
    (VStr (environ_get environ "RETRIEVER_PROVIDER" "elastic"))
    (overwrite_if (str_eq e "openai/text-embedding-3-small") "embedding_model"
       (VStr (environ_get environ "EMBEDDING_MODEL" "openai/text-embedding-3-small"))
       (overwrite_if (negb (truthy u)) "user_id"
          (VStr (environ_get environ "USER_ID" "")) self)).

(** The instance after the two further steps of
    [Configuration.__post_init__]. *)
Definition config_defaulted (environ : gmap string string) (rm qm : PyVal)
    (self : gmap string PyVal) : gmap string PyVal :=
  overwrite_if (str_eq qm "anthropic/claude-3-haiku-20240307") "query_model"
    (VStr (environ_get environ "QUERY_MODEL" "anthropic/claude-3-haiku-20240307"))
    (overwrite_if (str_eq rm "anthropic/claude-3-5-sonnet-20240620") "response_model"
       (VStr (environ_get environ "RESPONSE_MODEL" "anthropic/claude-3-5-sonnet-20240620"))
       self).

(** The instance between the field assignments and [__post_init__]. *)
Definition index_fields (kw : IndexConfiguration.kwargs) : gmap string PyVal :=
  <["search_kwargs" := default (VDict ∅) (IndexConfiguration.search_kwargs kw)]>
  (<["retriever_provider" :=
       default (VStr "elastic") (IndexConfiguration.retriever_provider kw)]>
  (<["embedding_model" :=
       default (VStr "openai/text-embedding-3-small")
         (IndexConfiguration.embedding_model kw)]>
  (<["user_id" := default (VStr "") (IndexConfiguration.user_id kw)]> ∅))).

Definition config_fields (prompts : Prompts) (kw : Configuration.kwargs)
    : gmap string PyVal :=
  <["query_model" :=
      default (VStr "anthropic/claude-3-haiku-20240307") (Configuration.query_model kw)]>
  (<["query_system_prompt" :=
       default (VStr (QUERY_SYSTEM_PROMPT prompts))
         (Configuration.query_system_prompt kw)]>
  (<["response_model" :=
       default (VStr "anthropic/claude-3-5-sonnet-20240620")
         (Configuration.response_model kw)]>
  (<["response_system_prompt" :=
       default (VStr (RESPONSE_SYSTEM_PROMPT prompts))
         (Configuration.response_system_prompt kw)]>
  (index_fields (Configuration.base kw))))).

(** The instance a call of [IndexConfiguration] returns. *)
Definition index_object (environ : gmap string string)
    (kw : IndexConfiguration.kwargs) : gmap string PyVal :=
  index_defaulted environ
    (default (VStr "") (IndexConfiguration.user_id kw))
    (default (VStr "openai/text-embedding-3-small")
       (IndexConfiguration.embedding_model kw))
    (default (VStr "elastic") (IndexConfiguration.retriever_provider kw))
    (index_fields kw).

(** The instance a call of [Configuration] returns. *)
Definition config_object (prompts : Prompts) (environ : gmap string string)
    (kw : Configuration.kwargs) : gmap string PyVal :=
  config_defaulted environ
    (default (VStr "anthropic/claude-3-5-sonnet-20240620")
       (Configuration.response_model kw))
    (default (VStr "anthropic/claude-3-haiku-20240307")
       (Configuration.query_model kw))
    (index_defaulted environ
       (default (VStr "") (Configuration.user_id kw))
       (default (VStr "openai/text-embedding-3-small")
          (Configuration.embedding_model kw))
       (default (VStr "elastic") (Configuration.retriever_provider kw))
       (config_fields prompts kw)).

(** ** Sample data: the environment and keywords of the unit tests *)

Definition test_prompts : Prompts :=
  {| RESPONSE_SYSTEM_PROMPT := "You are a helpful AI assistant.";
     QUERY_SYSTEM_PROMPT := "Generate search queries." |}.

Definition test_environ : gmap string string :=
  <["USER_ID" := "env_user"]>
  (<["EMBEDDING_MODEL" := "cohere/embed-english-v3.0"]>
  (<["RETRIEVER_PROVIDER" := "mongodb"]>
  (<["RESPONSE_MODEL" := "openai/gpt-4"]>
  (<["QUERY_MODEL" := "openai/gpt-3.5-turbo"]> ∅)))).

Definition test_kwargs : Configuration.kwargs :=
  {| Configuration.user_id := Some (VStr "explicit_user");
     Configuration.embedding_model := Some (VStr "openai/text-embedding-ada-002");
     Configuration.retriever_provider := Some (VStr "pinecone");
     Configuration.search_kwargs := None;
     Configuration.response_system_prompt := None;
     Configuration.response_model := Some (VStr "anthropic/claude-3-opus-20240229");
     Configuration.query_system_prompt := None;
     Configuration.query_model := Some (VStr "anthropic/claude-3-sonnet-20240229") |}.

(** [embedding_model] passed with the very string that is its default. *)
Definition default_literal_kwargs : Configuration.kwargs :=
  {| Configuration.user_id := None;
     Configuration.embedding_model := Some (VStr "openai/text-embedding-3-small");
     Configuration.retriever_provider := None;
     Configuration.search_kwargs := None;
     Configuration.response_system_prompt := None;
     Configuration.response_model := None;
     Configuration.query_system_prompt := None;
     Configuration.query_model := None |}.

(** ** Reading an instance back *)

(** The attribute names the two classes declare, in declaration order. *)
Definition index_field_names : list string :=
  ["user_id"; "embedding_model"; "retriever_provider"; "search_kwargs"].

Definition config_field_names : list string :=
  index_field_names ++
  ["response_system_prompt"; "response_model"; "query_system_prompt"; "query_model"].

(** The keywords that pass every field of [self] on to a new call. *)
Definition index_kwargs_of (self : gmap string PyVal) : IndexConfiguration.kwargs :=
  {| IndexConfiguration.user_id := self !! "user_id";
     IndexConfiguration.embedding_model := self !! "embedding_model";
     IndexConfiguration.retriever_provider := self !! "retriever_provider";
     IndexConfiguration.search_kwargs := self !! "search_kwargs" |}.

Definition config_kwargs_of (self : gmap string PyVal) : Configuration.kwargs :=
  {| Configuration.user_id := self !! "user_id";
     Configuration.embedding_model := self !! "embedding_model";
     Configuration.retriever_provider := self !! "retriever_provider";
     Configuration.search_kwargs := self !! "search_kwargs";
     Configuration.response_system_prompt := self !! "response_system_prompt";
     Configuration.response_model := self !! "response_model";
     Configuration.query_system_prompt := self !! "query_system_prompt";
     Configuration.query_model := self !! "query_model" |}.

(** A value of type [str]. *)
Definition is_str (v : PyVal) : bool :=
  match v with
  | VStr _ => true
  | _ => false
  end.

(** A string of the enumeration annotated on [retriever_provider]. *)
Definition is_provider (v : PyVal) : bool :=
  match v with
  | VStr s => bool_decide (s ∈ IndexConfiguration.retriever_provider_Literal)
  | _ => false
  end.

(** ** tests/unit_tests/test_configuration.py *)

(** [patch.dict(os.environ, values)]: inside the [with] block the
    environment is the ambient one updated with [values]. *)
Definition patch_dict (values environ : gmap string string) : gmap string string :=
  values ∪ environ.

(** [assert config.name == lit]: false when the construction raised, when
    the attribute is missing and when the comparison fails. *)
Definition assert_field_eq (config : PyExc + gmap string PyVal)
    (name lit : string) : bool :=
  match field name config with
  | Some v => str_eq v lit
  | None => false
  end.

(** Each test is the conjunction of its assertions, as a function of the
    environment the test process was started in. *)
Module test_configuration.

Section WithPrompts.
Variable prompts : Prompts.

Definition test_configuration_defaults (environ : gmap string string) : bool :=
  let config := Configuration.new prompts environ Configuration.no_kwargs in
  assert_field_eq config "user_id" "" &&
  assert_field_eq config "embedding_model" "openai/text-embedding-3-small" &&
  assert_field_eq config "retriever_provider" "elastic" &&
  assert_field_eq config "response_model" "anthropic/claude-3-5-sonnet-20240620" &&
  assert_field_eq config "query_model" "anthropic/claude-3-haiku-20240307".

Definition test_configuration_with_values (environ : gmap string string) : bool :=
  let config :=
    Configuration.new prompts environ
      {| Configuration.user_id := Some (VStr "test_user");
         Configuration.embedding_model := Some (VStr "openai/text-embedding-ada-002");
         Configuration.retriever_provider := Some (VStr "pinecone");
         Configuration.search_kwargs := None;
         Configuration.response_system_prompt := None;
         Configuration.response_model := Some (VStr "anthropic/claude-3-opus-20240229");
         Configuration.query_system_prompt := None;
         Configuration.query_model := Some (VStr "anthropic/claude-3-sonnet-20240229") |} in
  assert_field_eq config "user_id" "test_user" &&
  assert_field_eq config "embedding_model" "openai/text-embedding-ada-002" &&
  assert_field_eq config "retriever_provider" "pinecone" &&
  assert_field_eq config "response_model" "anthropic/claude-3-opus-20240229" &&
  assert_field_eq config "query_model" "anthropic/claude-3-sonnet-20240229".

Definition test_configuration_post_init_with_env_vars
    (environ : gmap string string) : bool :=
  let config :=
    Configuration.new prompts (patch_dict test_environ environ)
      Configuration.no_kwargs in
  assert_field_eq config "user_id" "env_user" &&
  assert_field_eq config "embedding_model" "cohere/embed-english-v3.0" &&
  assert_field_eq config "retriever_provider" "mongodb" &&
  assert_field_eq config "response_model" "openai/gpt-4" &&
  assert_field_eq config "query_model" "openai/gpt-3.5-turbo".

Definition test_configuration_post_init_explicit_values_override_env
    (environ : gmap string string) : bool :=
  let config :=
    Configuration.new prompts (patch_dict test_environ environ) test_kwargs in
  assert_field_eq config "user_id" "explicit_user" &&
  assert_field_eq config "embedding_model" "openai/text-embedding-ada-002" &&
  assert_field_eq config "retriever_provider" "pinecone" &&
  assert_field_eq config "response_model" "anthropic/claude-3-opus-20240229" &&
  assert_field_eq config "query_model" "anthropic/claude-3-sonnet-20240229".

End WithPrompts.

Definition test_index_configuration_post_init (environ : gmap string string) : bool :=
  let config :=
    IndexConfiguration.new
      (patch_dict
         (<["USER_ID" := "index_user"]>
          (<["EMBEDDING_MODEL" := "cohere/embed-english-v3.0"]>
          (<["RETRIEVER_PROVIDER" := "mongodb"]> ∅)))
         environ)
      IndexConfiguration.no_kwargs in
  assert_field_eq config "user_id" "index_user" &&
  assert_field_eq config "embedding_model" "cohere/embed-english-v3.0" &&
  assert_field_eq config "retriever_provider" "mongodb".

End test_configuration.

(** * Running method bodies *)

Lemma lookup_overwrite_if_eq b name w self v :
  self !! name = Some v →
  overwrite_if b name w self !! name = Some (if b then w else v).
Proof. intros Hv. destruct b; simpl; [apply lookup_insert_eq | exact Hv]. Qed.

Lemma lookup_overwrite_if_ne b name w self name' :
  name ≠ name' →
  overwrite_if b name w self !! name' = self !! name'.
Proof. intros Hne. destruct b; simpl; [by apply lookup_insert_ne | done]. Qed.

Lemma run_bind {A B} (m : Py A) (f : A → Py B) self :
  (m ≫= f) self =
  match m self with inl e => inl e | inr (x, self') => f x self' end.
Proof. reflexivity. Qed.

Lemma run_getattr name self v :
  self !! name = Some v → getattr name self = inr (v, self).
Proof. intros Hv. unfold getattr. by rewrite Hv. Qed.


Lemma run_when_setattr b name w self :
  when b (setattr name w) self = inr (tt, overwrite_if b name w self).
Proof. by destruct b. Qed.

(** One defaulting step: read the attribute, overwrite it when the test on
    the value read succeeds, continue. *)
Lemma run_default_step {B} (test : PyVal → bool) name w (k : Py B) self v :
  self !! name = Some v →
  (getattr name ≫= λ x, when (test x) (setattr name w) ≫= λ _, k) self =
  k (overwrite_if (test v) name w self).
Proof.
  intros Hv. rewrite run_bind, (run_getattr _ _ _ Hv).
  by rewrite run_bind, run_when_setattr.
Qed.

Lemma run_default_last (test : PyVal → bool) name w self v :
  self !! name = Some v →
  (getattr name ≫= λ x, when (test x) (setattr name w)) self =
  inr (tt, overwrite_if (test v) name w self).
Proof.
  intros Hv. rewrite run_bind, (run_getattr _ _ _ Hv).
  apply run_when_setattr.
Qed.

Ltac names_differ := by (intros ?; simplify_eq).

(** * [__post_init__] on an arbitrary instance *)

Lemma index_post_init_run environ self u e r :
  self !! "user_id" = Some u →
  self !! "embedding_model" = Some e →
  self !! "retriever_provider" = Some r →
  IndexConfiguration.__post_init__ environ self =
  inr (tt, index_defaulted environ u e r self).
Proof.
  intros Hu He Hr. unfold IndexConfiguration.__post_init__.
  rewrite (run_default_step (λ x, negb (truthy x)) _ _ _ _ _ Hu).
  rewrite (run_default_step (λ x, str_eq x _) _ _ _ _ e).
  2:{ rewrite lookup_overwrite_if_ne by names_differ. exact He. }
  rewrite (run_default_last (λ x, str_eq x _) _ _ _ r).
  2:{ rewrite !lookup_overwrite_if_ne by names_differ. exact Hr. }
  reflexivity.
Qed.

(** What a step leaves under a name depends on the instance only through
    what it had under that name. *)
Lemma lookup_overwrite_if_congr b name w self self' name' :
  self !! name' = self' !! name' →
  overwrite_if b name w self !! name' = overwrite_if b name w self' !! name'.
Proof.
  intros Heq. destruct b; simpl; [|done].
  rewrite !lookup_insert. by case_decide.
Qed.

Lemma lookup_index_defaulted_congr environ u e r self self' name :
  self !! name = self' !! name →
  index_defaulted environ u e r self !! name =
  index_defaulted environ u e r self' !! name.
Proof.
  intros Heq. unfold index_defaulted.
  by do 3 apply lookup_overwrite_if_congr.
Qed.

(** The base pass changes no attribute besides its three. *)
Lemma lookup_index_defaulted_other environ u e r self name :
  name ≠ "user_id" → name ≠ "embedding_model" → name ≠ "retriever_provider" →
  index_defaulted environ u e r self !! name = self !! name.
Proof.
  intros H1 H2 H3. unfold index_defaulted.
  by rewrite !lookup_overwrite_if_ne.
Qed.

Lemma lookup_config_defaulted_other environ rm qm self name :
  name ≠ "response_model" → name ≠ "query_model" →
  config_defaulted environ rm qm self !! name = self !! name.
Proof.
  intros H1 H2. unfold config_defaulted.
  by rewrite !lookup_overwrite_if_ne.
Qed.

Lemma config_post_init_run environ self u e r rm qm :
  self !! "user_id" = Some u →
  self !! "embedding_model" = Some e →
  self !! "retriever_provider" = Some r →
  self !! "response_model" = Some rm →
  self !! "query_model" = Some qm →
  Configuration.__post_init__ environ self =
  inr (tt, config_defaulted environ rm qm (index_defaulted environ u e r self)).
Proof.
  intros Hu He Hr Hrm Hqm. unfold Configuration.__post_init__.
  rewrite run_bind, (index_post_init_run _ _ _ _ _ Hu He Hr).
  rewrite (run_default_step (λ x, str_eq x _) _ _ _ _ rm).
  2:{ rewrite lookup_index_defaulted_other by names_differ. exact Hrm. }
  rewrite (run_default_last (λ x, str_eq x _) _ _ _ qm).
  2:{ rewrite lookup_overwrite_if_ne, lookup_index_defaulted_other
        by names_differ. exact Hqm. }
  reflexivity.
Qed.

(** * Construction *)

Lemma index_set_fields_run kw :
  IndexConfiguration.set_fields kw ∅ = inr (tt, index_fields kw).
Proof. reflexivity. Qed.

Lemma config_set_fields_run prompts kw :
  Configuration.set_fields prompts kw ∅ = inr (tt, config_fields prompts kw).
Proof. reflexivity. Qed.

Lemma lookup_index_fields_user_id kw :
  index_fields kw !! "user_id" =
  Some (default (VStr "") (IndexConfiguration.user_id kw)).
Proof. unfold index_fields. by simplify_map_eq. Qed.

Lemma lookup_index_fields_embedding_model kw :
  index_fields kw !! "embedding_model" =
  Some (default (VStr "openai/text-embedding-3-small")
          (IndexConfiguration.embedding_model kw)).
Proof. unfold index_fields. by simplify_map_eq. Qed.

Lemma lookup_index_fields_retriever_provider kw :
  index_fields kw !! "retriever_provider" =
  Some (default (VStr "elastic") (IndexConfiguration.retriever_provider kw)).
Proof. unfold index_fields. by simplify_map_eq. Qed.

Lemma lookup_index_fields_search_kwargs kw :
  index_fields kw !! "search_kwargs" =
  Some (default (VDict ∅) (IndexConfiguration.search_kwargs kw)).
Proof. unfold index_fields. by simplify_map_eq. Qed.

Lemma lookup_config_fields_base prompts kw name :
  name ≠ "query_model" → name ≠ "query_system_prompt" →
  name ≠ "response_model" → name ≠ "response_system_prompt" →
  config_fields prompts kw !! name = index_fields (Configuration.base kw) !! name.
Proof. intros. unfold config_fields. by rewrite !lookup_insert_ne. Qed.

Lemma lookup_config_fields_response_system_prompt prompts kw :
  config_fields prompts kw !! "response_system_prompt" =
  Some (default (VStr (RESPONSE_SYSTEM_PROMPT prompts))
          (Configuration.response_system_prompt kw)).
Proof. unfold config_fields. by simplify_map_eq. Qed.

Lemma lookup_config_fields_response_model prompts kw :
  config_fields prompts kw !! "response_model" =
  Some (default (VStr "anthropic/claude-3-5-sonnet-20240620")
          (Configuration.response_model kw)).
Proof. unfold config_fields. by simplify_map_eq. Qed.

Lemma lookup_config_fields_query_system_prompt prompts kw :
  config_fields prompts kw !! "query_system_prompt" =
  Some (default (VStr (QUERY_SYSTEM_PROMPT prompts))
          (Configuration.query_system_prompt kw)).
Proof. unfold config_fields. by simplify_map_eq. Qed.

Lemma lookup_config_fields_query_model prompts kw :
  config_fields prompts kw !! "query_model" =
  Some (default (VStr "anthropic/claude-3-haiku-20240307")
          (Configuration.query_model kw)).
Proof. unfold config_fields. by simplify_map_eq. Qed.

(** Calling [IndexConfiguration] returns, and returns [index_object]. *)
Lemma index_new_eq environ kw :
  IndexConfiguration.new environ kw = inr (index_object environ kw).
Proof.
  unfold IndexConfiguration.new, instantiate, IndexConfiguration.__init__.
  rewrite run_bind, index_set_fields_run.
  by rewrite (index_post_init_run _ _ _ _ _
    (lookup_index_fields_user_id kw)
    (lookup_index_fields_embedding_model kw)
    (lookup_index_fields_retriever_provider kw)).
Qed.

(** Calling [Configuration] returns, and returns [config_object]. *)
Lemma config_new_eq prompts environ kw :
  Configuration.new prompts environ kw = inr (config_object prompts environ kw).
Proof.
  unfold Configuration.new, instantiate, Configuration.__init__.
  rewrite run_bind, config_set_fields_run.
  rewrite (config_post_init_run environ _
    (default (VStr "") (Configuration.user_id kw))
    (default (VStr "openai/text-embedding-3-small") (Configuration.embedding_model kw))
    (default (VStr "elastic") (Configuration.retriever_provider kw))
    (default (VStr "anthropic/claude-3-5-sonnet-20240620") (Configuration.response_model kw))
    (default (VStr "anthropic/claude-3-haiku-20240307") (Configuration.query_model kw))).
  - reflexivity.
  - rewrite lookup_config_fields_base by names_differ.
    apply lookup_index_fields_user_id.
  - rewrite lookup_config_fields_base by names_differ.
    apply lookup_index_fields_embedding_model.
  - rewrite lookup_config_fields_base by names_differ.
    apply lookup_index_fields_retriever_provider.
  - apply lookup_config_fields_response_model.
  - apply lookup_config_fields_query_model.
Qed.

(** * The fields of a constructed instance *)

Lemma lookup_index_defaulted_user_id environ u e r self :
  self !! "user_id" = Some u →
  index_defaulted environ u e r self !! "user_id" =
  Some (if negb (truthy u) then VStr (environ_get environ "USER_ID" "") else u).
Proof.
  intros Hu. unfold index_defaulted.
  rewrite !lookup_overwrite_if_ne by names_differ.
  by apply lookup_overwrite_if_eq.
Qed.

Lemma lookup_index_defaulted_embedding_model environ u e r self :
  self !! "embedding_model" = Some e →
  index_defaulted environ u e r self !! "embedding_model" =
  Some (if str_eq e "openai/text-embedding-3-small"
        then VStr (environ_get environ "EMBEDDING_MODEL" "openai/text-embedding-3-small")
        else e).
Proof.
  intros He. unfold index_defaulted.
  rewrite lookup_overwrite_if_ne by names_differ.
  apply lookup_overwrite_if_eq.
  by rewrite lookup_overwrite_if_ne by names_differ.
Qed.

Lemma lookup_index_defaulted_retriever_provider environ u e r self :
  self !! "retriever_provider" = Some r →
  index_defaulted environ u e r self !! "retriever_provider" =
  Some (if str_eq r "elastic"
        then VStr (environ_get environ "RETRIEVER_PROVIDER" "elastic")
        else r).
Proof.
  intros Hr. unfold index_defaulted.
  apply lookup_overwrite_if_eq.
  by rewrite !lookup_overwrite_if_ne by names_differ.
Qed.

Lemma lookup_config_defaulted_response_model environ rm qm self :
  self !! "response_model" = Some rm →
  config_defaulted environ rm qm self !! "response_model" =
  Some (if str_eq rm "anthropic/claude-3-5-sonnet-20240620"
        then VStr (environ_get environ "RESPONSE_MODEL" "anthropic/claude-3-5-sonnet-20240620")
        else rm).
Proof.
  intros Hrm. unfold config_defaulted.
  rewrite lookup_overwrite_if_ne by names_differ.
  by apply lookup_overwrite_if_eq.
Qed.

Lemma lookup_config_defaulted_query_model environ rm qm self :
  self !! "query_model" = Some qm →
  config_defaulted environ rm qm self !! "query_model" =
  Some (if str_eq qm "anthropic/claude-3-haiku-20240307"
        then VStr (environ_get environ "QUERY_MODEL" "anthropic/claude-3-haiku-20240307")
        else qm).
Proof.
  intros Hqm. unfold config_defaulted.
  apply lookup_overwrite_if_eq.
  by rewrite lookup_overwrite_if_ne by names_differ.
Qed.

(** What [os.environ.get] returns, in terms of the lookup. *)
Lemma environ_get_precedence environ var dflt :
  VStr (environ_get environ var dflt) =
  precedence None (environ !! var) (VStr dflt).
Proof. unfold environ_get, precedence. by destruct (environ !! var). Qed.

(** The value a string field ends with, whatever keyword was passed. *)
Lemma str_field_by_value (f : EnvField) (o : option PyVal) environ :
  f ≠ F_user_id →
  (if str_eq (default (VStr (builtin_default f)) o) (builtin_default f)
   then VStr (environ_get environ (env_var f) (builtin_default f))
   else default (VStr (builtin_default f)) o) =
  precedence_by_value f o (environ !! env_var f).
Proof.
  intros Hf. unfold precedence_by_value.
  destruct o as [v|]; simpl.
  - replace (kept f v) with (negb (str_eq v (builtin_default f)))
      by (by destruct f).
    destruct (str_eq v (builtin_default f)); simpl; [|done].
    apply environ_get_precedence.
  - rewrite String.eqb_refl. apply environ_get_precedence.
Qed.

Lemma user_id_by_value (o : option PyVal) environ :
  (if negb (truthy (default (VStr "") o))
   then VStr (environ_get environ "USER_ID" "")
   else default (VStr "") o) =
  precedence_by_value F_user_id o (environ !! "USER_ID").
Proof.
  unfold precedence_by_value. destruct o as [v|]; simpl.
  - destruct (truthy v); simpl; [done|]. apply environ_get_precedence.
  - apply environ_get_precedence.
Qed.

(** Every environment-bound field of a [Configuration] follows
    [precedence_by_value]. *)
Lemma config_object_env_field prompts environ kw f :
  config_object prompts environ kw !! attr_name f =
  Some (precedence_by_value f (kwarg f kw) (environ !! env_var f)).
Proof.
  unfold config_object. destruct f; simpl attr_name.
  - rewrite lookup_config_defaulted_other by names_differ.
    rewrite (lookup_index_defaulted_user_id _ _ _ _ _).
    2:{ rewrite lookup_config_fields_base by names_differ.
        apply lookup_index_fields_user_id. }
    f_equal. apply user_id_by_value.
  - rewrite lookup_config_defaulted_other by names_differ.
    rewrite (lookup_index_defaulted_embedding_model _ _ _ _ _).
    2:{ rewrite lookup_config_fields_base by names_differ.
        apply lookup_index_fields_embedding_model. }
    f_equal. by apply (str_field_by_value F_embedding_model).
  - rewrite lookup_config_defaulted_other by names_differ.
    rewrite (lookup_index_defaulted_retriever_provider _ _ _ _ _).
    2:{ rewrite lookup_config_fields_base by names_differ.
        apply lookup_index_fields_retriever_provider. }
    f_equal. by apply (str_field_by_value F_retriever_provider).
  - rewrite (lookup_config_defaulted_response_model _ _ _ _).
    2:{ rewrite lookup_index_defaulted_other by names_differ.
        apply lookup_config_fields_response_model. }
    f_equal. by apply (str_field_by_value F_response_model).
  - rewrite (lookup_config_defaulted_query_model _ _ _ _).
    2:{ rewrite lookup_index_defaulted_other by names_differ.
        apply lookup_config_fields_query_model. }
    f_equal. by apply (str_field_by_value F_query_model).
Qed.

Lemma config_field_env prompts environ kw f :
  field (attr_name f) (Configuration.new prompts environ kw) =
  Some (precedence_by_value f (kwarg f kw) (environ !! env_var f)).
Proof. rewrite config_new_eq. apply config_object_env_field. Qed.

(** The fields no step of [__post_init__] names keep what [__init__]
    stored. *)
Lemma config_object_other prompts environ kw name :
  name ≠ "user_id" → name ≠ "embedding_model" → name ≠ "retriever_provider" →
  name ≠ "response_model" → name ≠ "query_model" →
  config_object prompts environ kw !! name = config_fields prompts kw !! name.
Proof.
  intros. unfold config_object.
  rewrite lookup_config_defaulted_other by done.
  by rewrite lookup_index_defaulted_other.
Qed.

Lemma config_field_other prompts environ kw name :
  name ≠ "user_id" → name ≠ "embedding_model" → name ≠ "retriever_provider" →
  name ≠ "response_model" → name ≠ "query_model" →
  field name (Configuration.new prompts environ kw) =
  config_fields prompts kw !! name.
Proof. intros. rewrite config_new_eq. by apply config_object_other. Qed.

Lemma index_field_user_id environ kw :
  field "user_id" (IndexConfiguration.new environ kw) =
  Some (precedence_by_value F_user_id (IndexConfiguration.user_id kw)
          (environ !! "USER_ID")).
Proof.
  rewrite index_new_eq. simpl. unfold index_object.
  rewrite (lookup_index_defaulted_user_id _ _ _ _ _
             (lookup_index_fields_user_id kw)).
  f_equal. apply user_id_by_value.
Qed.

Lemma index_field_embedding_model environ kw :
  field "embedding_model" (IndexConfiguration.new environ kw) =
  Some (precedence_by_value F_embedding_model
          (IndexConfiguration.embedding_model kw)
          (environ !! "EMBEDDING_MODEL")).
Proof.
  rewrite index_new_eq. simpl. unfold index_object.
  rewrite (lookup_index_defaulted_embedding_model _ _ _ _ _
             (lookup_index_fields_embedding_model kw)).
  f_equal. by apply (str_field_by_value F_embedding_model).
Qed.

Lemma index_field_retriever_provider environ kw :
  field "retriever_provider" (IndexConfiguration.new environ kw) =
  Some (precedence_by_value F_retriever_provider
          (IndexConfiguration.retriever_provider kw)
          (environ !! "RETRIEVER_PROVIDER")).
Proof.
  rewrite index_new_eq. simpl. unfold index_object.
  rewrite (lookup_index_defaulted_retriever_provider _ _ _ _ _
             (lookup_index_fields_retriever_provider kw)).
  f_equal. by apply (str_field_by_value F_retriever_provider).
Qed.

Lemma index_field_search_kwargs environ kw :
  field "search_kwargs" (IndexConfiguration.new environ kw) =
  Some (default (VDict ∅) (IndexConfiguration.search_kwargs kw)).
Proof.
  rewrite index_new_eq. simpl. unfold index_object.
  rewrite lookup_index_defaulted_other by names_differ.
  apply lookup_index_fields_search_kwargs.
Qed.

(** A string other than the default literal is [kept]; so is a non-empty
    [user_id]. *)
Lemma kept_str f s :
  s ≠ builtin_default f → kept f (VStr s) = true.
Proof.
  intros Hs. apply String.eqb_neq in Hs.
  destruct f; simpl in *; by rewrite Hs.
Qed.

Lemma kept_default f : kept f (VStr (builtin_default f)) = false.
Proof. by destruct f. Qed.

Lemma precedence_by_value_kept f s env_value :
  s ≠ builtin_default f →
  precedence_by_value f (Some (VStr s)) env_value = VStr s.
Proof. intros Hs. unfold precedence_by_value. by rewrite kept_str. Qed.

Lemma precedence_by_value_default f x :
  precedence_by_value f (Some (VStr (builtin_default f))) (Some x) = VStr x.
Proof. unfold precedence_by_value. by rewrite kept_default. Qed.

(** Rewrite the field of [f] in a goal about [Configuration.new]. *)
Ltac rewrite_env_field f :=
  etrans; [exact (config_field_env _ _ _ f)|]; cbn [kwarg env_var].

(** * The claims *)

(** C1. When all five environment-bound fields are passed as strings that
    differ from their built-in defaults (a non-empty [user_id]), the
    constructed [Configuration] holds exactly the strings passed, whatever
    the environment contains. *)
Theorem explicit_values_win prompts environ kw u e r rm qm :
  Configuration.user_id kw = Some (VStr u) → u ≠ "" →
  Configuration.embedding_model kw = Some (VStr e) →
  e ≠ "openai/text-embedding-3-small" →
  Configuration.retriever_provider kw = Some (VStr r) → r ≠ "elastic" →
  Configuration.response_model kw = Some (VStr rm) →
  rm ≠ "anthropic/claude-3-5-sonnet-20240620" →
  Configuration.query_model kw = Some (VStr qm) →
  qm ≠ "anthropic/claude-3-haiku-20240307" →
  field "user_id" (Configuration.new prompts environ kw) = Some (VStr u) ∧
  field "embedding_model" (Configuration.new prompts environ kw) = Some (VStr e) ∧
  field "retriever_provider" (Configuration.new prompts environ kw) = Some (VStr r) ∧
  field "response_model" (Configuration.new prompts environ kw) = Some (VStr rm) ∧
  field "query_model" (Configuration.new prompts environ kw) = Some (VStr qm).
Proof.
  intros Hu Hu' He He' Hr Hr' Hrm Hrm' Hqm Hqm'.
  repeat split.
  - rewrite_env_field F_user_id. rewrite Hu.
    by rewrite precedence_by_value_kept.
  - rewrite_env_field F_embedding_model. rewrite He.
    by rewrite precedence_by_value_kept.
  - rewrite_env_field F_retriever_provider. rewrite Hr.
    by rewrite precedence_by_value_kept.
  - rewrite_env_field F_response_model. rewrite Hrm.
    by rewrite precedence_by_value_kept.
  - rewrite_env_field F_query_model. rewrite Hqm.
    by rewrite precedence_by_value_kept.
Qed.

Lemma explicit_values_win_witness :
  field "user_id" (Configuration.new test_prompts test_environ test_kwargs)
    = Some (VStr "explicit_user") ∧
  field "embedding_model" (Configuration.new test_prompts test_environ test_kwargs)
    = Some (VStr "openai/text-embedding-ada-002") ∧
  field "retriever_provider" (Configuration.new test_prompts test_environ test_kwargs)
    = Some (VStr "pinecone") ∧
  field "response_model" (Configuration.new test_prompts test_environ test_kwargs)
    = Some (VStr "anthropic/claude-3-opus-20240229") ∧
  field "query_model" (Configuration.new test_prompts test_environ test_kwargs)
    = Some (VStr "anthropic/claude-3-sonnet-20240229").
Proof.
  apply (explicit_values_win test_prompts test_environ test_kwargs);
    first [reflexivity | discriminate].
Defined.

(** C2. When [USER_ID], [EMBEDDING_MODEL], [RETRIEVER_PROVIDER],
    [RESPONSE_MODEL] and [QUERY_MODEL] are all set, a [Configuration] built
    with no keyword holds, in each of the five fields, the value of the
    field's environment variable. *)
Theorem environment_fills_defaults prompts environ u e r rm qm :
  environ !! "USER_ID" = Some u →
  environ !! "EMBEDDING_MODEL" = Some e →
  environ !! "RETRIEVER_PROVIDER" = Some r →
  environ !! "RESPONSE_MODEL" = Some rm →
  environ !! "QUERY_MODEL" = Some qm →
  field "user_id"
    (Configuration.new prompts environ Configuration.no_kwargs) = Some (VStr u) ∧
  field "embedding_model"
    (Configuration.new prompts environ Configuration.no_kwargs) = Some (VStr e) ∧
  field "retriever_provider"
    (Configuration.new prompts environ Configuration.no_kwargs) = Some (VStr r) ∧
  field "response_model"
    (Configuration.new prompts environ Configuration.no_kwargs) = Some (VStr rm) ∧
  field "query_model"
    (Configuration.new prompts environ Configuration.no_kwargs) = Some (VStr qm).
Proof.
  intros Hu He Hr Hrm Hqm. repeat split.
  - rewrite_env_field F_user_id. by rewrite Hu.
  - rewrite_env_field F_embedding_model. by rewrite He.
  - rewrite_env_field F_retriever_provider. by rewrite Hr.
  - rewrite_env_field F_response_model. by rewrite Hrm.
  - rewrite_env_field F_query_model. by rewrite Hqm.
Qed.

Lemma environment_fills_defaults_witness :
  field "user_id"
    (Configuration.new test_prompts test_environ Configuration.no_kwargs)
    = Some (VStr "env_user") ∧
  field "embedding_model"
    (Configuration.new test_prompts test_environ Configuration.no_kwargs)
    = Some (VStr "cohere/embed-english-v3.0") ∧
  field "retriever_provider"
    (Configuration.new test_prompts test_environ Configuration.no_kwargs)
    = Some (VStr "mongodb") ∧
  field "response_model"
    (Configuration.new test_prompts test_environ Configuration.no_kwargs)
    = Some (VStr "openai/gpt-4") ∧
  field "query_model"
    (Configuration.new test_prompts test_environ Configuration.no_kwargs)
    = Some (VStr "openai/gpt-3.5-turbo").
Proof.
  apply (environment_fills_defaults test_prompts test_environ); reflexivity.
Defined.

(** C3. For each environment-bound field whose variable is set: passing
    the field with a value equal to its built-in default literal yields the
    environment's value, the same value the field gets when the keyword is
    omitted. *)
Theorem default_literal_counts_as_unset prompts environ f x kw kw' :
  environ !! env_var f = Some x →
  kwarg f kw = Some (VStr (builtin_default f)) →
  kwarg f kw' = None →
  field (attr_name f) (Configuration.new prompts environ kw) = Some (VStr x) ∧
  field (attr_name f) (Configuration.new prompts environ kw) =
  field (attr_name f) (Configuration.new prompts environ kw').
Proof.
  intros Hx Hkw Hkw'.
  rewrite !config_field_env, Hx, Hkw, Hkw'.
  by rewrite precedence_by_value_default.
Qed.

Lemma default_literal_counts_as_unset_witness :
  field "embedding_model"
    (Configuration.new test_prompts test_environ
       default_literal_kwargs)
    = Some (VStr "cohere/embed-english-v3.0") ∧
  field "embedding_model"
    (Configuration.new test_prompts test_environ
       default_literal_kwargs)
    = field "embedding_model"
        (Configuration.new test_prompts test_environ Configuration.no_kwargs).
Proof.
  apply (default_literal_counts_as_unset test_prompts test_environ
           F_embedding_model); reflexivity.
Defined.

(** C4. When none of the five variables is set, a [Configuration] built
    with no keyword holds the five built-in defaults. *)
Theorem defaults_without_environment prompts environ :
  environ !! "USER_ID" = None →
  environ !! "EMBEDDING_MODEL" = None →
  environ !! "RETRIEVER_PROVIDER" = None →
  environ !! "RESPONSE_MODEL" = None →
  environ !! "QUERY_MODEL" = None →
  field "user_id"
    (Configuration.new prompts environ Configuration.no_kwargs)
    = Some (VStr "") ∧
  field "embedding_model"
    (Configuration.new prompts environ Configuration.no_kwargs)
    = Some (VStr "openai/text-embedding-3-small") ∧
  field "retriever_provider"
    (Configuration.new prompts environ Configuration.no_kwargs)
    = Some (VStr "elastic") ∧
  field "response_model"
    (Configuration.new prompts environ Configuration.no_kwargs)
    = Some (VStr "anthropic/claude-3-5-sonnet-20240620") ∧
  field "query_model"
    (Configuration.new prompts environ Configuration.no_kwargs)
    = Some (VStr "anthropic/claude-3-haiku-20240307").
Proof.
  intros Hu He Hr Hrm Hqm. repeat split.
  - rewrite_env_field F_user_id. by rewrite Hu.
  - rewrite_env_field F_embedding_model. by rewrite He.
  - rewrite_env_field F_retriever_provider. by rewrite Hr.
  - rewrite_env_field F_response_model. by rewrite Hrm.
  - rewrite_env_field F_query_model. by rewrite Hqm.
Qed.

Lemma defaults_without_environment_witness :
  field "user_id"
    (Configuration.new test_prompts ∅ Configuration.no_kwargs)
    = Some (VStr "") ∧
  field "embedding_model"
    (Configuration.new test_prompts ∅ Configuration.no_kwargs)
    = Some (VStr "openai/text-embedding-3-small") ∧
  field "retriever_provider"
    (Configuration.new test_prompts ∅ Configuration.no_kwargs)
    = Some (VStr "elastic") ∧
  field "response_model"
    (Configuration.new test_prompts ∅ Configuration.no_kwargs)
    = Some (VStr "anthropic/claude-3-5-sonnet-20240620") ∧
  field "query_model"
    (Configuration.new test_prompts ∅ Configuration.no_kwargs)
    = Some (VStr "anthropic/claude-3-haiku-20240307").
Proof.
  apply (defaults_without_environment test_prompts ∅); reflexivity.
Defined.

(** C5. In both classes: when the value [__init__] stores in [user_id] is
    the empty string, the field ends as [USER_ID] when that is set and as
    the empty string otherwise; a non-empty string is kept.  An empty
    [user_id] passed explicitly builds the same instance as an omitted one. *)
Theorem user_id_rule prompts environ ikw kw u u' :
  default (VStr "") (IndexConfiguration.user_id ikw) = VStr u →
  default (VStr "") (Configuration.user_id kw) = VStr u' →
  field "user_id" (IndexConfiguration.new environ ikw) =
    Some (VStr (if decide (u = "")
                then match environ !! "USER_ID" with Some x => x | None => "" end
                else u)) ∧
  field "user_id" (Configuration.new prompts environ kw) =
    Some (VStr (if decide (u' = "")
                then match environ !! "USER_ID" with Some x => x | None => "" end
                else u')) ∧
  IndexConfiguration.new environ
    (IndexConfiguration.with_user_id (Some (VStr "")) ikw) =
  IndexConfiguration.new environ (IndexConfiguration.with_user_id None ikw) ∧
  Configuration.new prompts environ
    (Configuration.with_user_id (Some (VStr "")) kw) =
  Configuration.new prompts environ (Configuration.with_user_id None kw).
Proof.
  intros Hu Hu'. split_and!.
  - rewrite index_field_user_id, <- user_id_by_value, Hu. simpl.
    case_decide as Hd.
    + subst u. reflexivity.
    + apply String.eqb_neq in Hd. by rewrite Hd.
  - rewrite_env_field F_user_id. rewrite <- user_id_by_value, Hu'. simpl.
    case_decide as Hd.
    + subst u'. reflexivity.
    + apply String.eqb_neq in Hd. by rewrite Hd.
  - by rewrite !index_new_eq.
  - by rewrite !config_new_eq.
Qed.

Lemma user_id_rule_witness :
  field "user_id" (IndexConfiguration.new test_environ IndexConfiguration.no_kwargs)
    = Some (VStr "env_user") ∧
  field "user_id" (Configuration.new test_prompts test_environ test_kwargs)
    = Some (VStr "explicit_user") ∧
  IndexConfiguration.new test_environ
    (IndexConfiguration.with_user_id (Some (VStr "")) IndexConfiguration.no_kwargs) =
  IndexConfiguration.new test_environ
    (IndexConfiguration.with_user_id None IndexConfiguration.no_kwargs) ∧
  Configuration.new test_prompts test_environ
    (Configuration.with_user_id (Some (VStr "")) test_kwargs) =
  Configuration.new test_prompts test_environ
    (Configuration.with_user_id None test_kwargs).
Proof.
  apply (user_id_rule test_prompts test_environ IndexConfiguration.no_kwargs
           test_kwargs "" "explicit_user"); reflexivity.
Defined.

(** C7. [IndexConfiguration] on its own, built with no keyword while
    [USER_ID], [EMBEDDING_MODEL] and [RETRIEVER_PROVIDER] are set, holds the
    three environment values. *)
Theorem index_configuration_reads_environment environ u e r :
  environ !! "USER_ID" = Some u →
  environ !! "EMBEDDING_MODEL" = Some e →
  environ !! "RETRIEVER_PROVIDER" = Some r →
  field "user_id"
    (IndexConfiguration.new environ IndexConfiguration.no_kwargs) = Some (VStr u) ∧
  field "embedding_model"
    (IndexConfiguration.new environ IndexConfiguration.no_kwargs) = Some (VStr e) ∧
  field "retriever_provider"
    (IndexConfiguration.new environ IndexConfiguration.no_kwargs) = Some (VStr r).
Proof.
  intros Hu He Hr. split_and!.
  - by rewrite index_field_user_id, Hu.
  - by rewrite index_field_embedding_model, He.
  - by rewrite index_field_retriever_provider, Hr.
Qed.

Lemma index_configuration_reads_environment_witness :
  field "user_id"
    (IndexConfiguration.new
       (<["USER_ID" := "index_user"]> test_environ) IndexConfiguration.no_kwargs)
    = Some (VStr "index_user") ∧
  field "embedding_model"
    (IndexConfiguration.new
       (<["USER_ID" := "index_user"]> test_environ) IndexConfiguration.no_kwargs)
    = Some (VStr "cohere/embed-english-v3.0") ∧
  field "retriever_provider"
    (IndexConfiguration.new
       (<["USER_ID" := "index_user"]> test_environ) IndexConfiguration.no_kwargs)
    = Some (VStr "mongodb").
Proof.
  apply (index_configuration_reads_environment
           (<["USER_ID" := "index_user"]> test_environ)); reflexivity.
Defined.

(** C8. [search_kwargs], [response_system_prompt] and [query_system_prompt]
    are never taken from the environment: each holds the keyword passed, or
    its built-in default when none was, which is what [__init__] stored
    before the defaulting pass ran; two environments give the same three
    fields. *)
Theorem unbound_fields_ignore_environment prompts environ environ' kw :
  (field "search_kwargs" (Configuration.new prompts environ kw) =
     Some (default (VDict ∅) (Configuration.search_kwargs kw)) ∧
   field "response_system_prompt" (Configuration.new prompts environ kw) =
     Some (default (VStr (RESPONSE_SYSTEM_PROMPT prompts))
             (Configuration.response_system_prompt kw)) ∧
   field "query_system_prompt" (Configuration.new prompts environ kw) =
     Some (default (VStr (QUERY_SYSTEM_PROMPT prompts))
             (Configuration.query_system_prompt kw))) ∧
  (field "search_kwargs" (Configuration.new prompts environ kw) =
     field "search_kwargs" (instantiate (Configuration.set_fields prompts kw)) ∧
   field "response_system_prompt" (Configuration.new prompts environ kw) =
     field "response_system_prompt"
       (instantiate (Configuration.set_fields prompts kw)) ∧
   field "query_system_prompt" (Configuration.new prompts environ kw) =
     field "query_system_prompt"
       (instantiate (Configuration.set_fields prompts kw))) ∧
  (field "search_kwargs" (Configuration.new prompts environ kw) =
     field "search_kwargs" (Configuration.new prompts environ' kw) ∧
   field "response_system_prompt" (Configuration.new prompts environ kw) =
     field "response_system_prompt" (Configuration.new prompts environ' kw) ∧
   field "query_system_prompt" (Configuration.new prompts environ kw) =
     field "query_system_prompt" (Configuration.new prompts environ' kw)).
Proof.
  assert (Hinit : instantiate (Configuration.set_fields prompts kw) =
                  inr (config_fields prompts kw)).
  { unfold instantiate. by rewrite config_set_fields_run. }
  rewrite Hinit. simpl field.
  rewrite !config_field_other by names_differ.
  rewrite lookup_config_fields_response_system_prompt,
    lookup_config_fields_query_system_prompt.
  rewrite lookup_config_fields_base by names_differ.
  rewrite lookup_index_fields_search_kwargs.
  by split_and!.
Qed.

(** The exception channel of the model is live: the defaulting pass run on
    an instance without attributes raises. *)
Lemma post_init_on_bare_instance_raises environ :
  IndexConfiguration.__post_init__ environ ∅ = inl (AttributeError "user_id") ∧
  Configuration.__post_init__ environ ∅ = inl (AttributeError "user_id").
Proof. split; reflexivity. Qed.

(** C9. Construction of either class never raises, whatever is passed and
    whatever the environment holds.  A [retriever_provider] outside the
    annotated enumeration is kept as it is, both when it is passed and when
    it comes from [RETRIEVER_PROVIDER]. *)
Theorem construction_never_raises prompts environ ikw kw p :
  p ∉ IndexConfiguration.retriever_provider_Literal →
  (∃ self, IndexConfiguration.new environ ikw = inr self) ∧
  (∃ self, Configuration.new prompts environ kw = inr self) ∧
  field "retriever_provider"
    (IndexConfiguration.new environ
       (IndexConfiguration.with_retriever_provider (Some (VStr p)) ikw)) =
    Some (VStr p) ∧
  field "retriever_provider"
    (Configuration.new prompts environ
       (Configuration.with_retriever_provider (Some (VStr p)) kw)) =
    Some (VStr p) ∧
  field "retriever_provider"
    (IndexConfiguration.new (<["RETRIEVER_PROVIDER" := p]> environ)
       (IndexConfiguration.with_retriever_provider None ikw)) =
    Some (VStr p) ∧
  field "retriever_provider"
    (Configuration.new prompts (<["RETRIEVER_PROVIDER" := p]> environ)
       (Configuration.with_retriever_provider None kw)) =
    Some (VStr p).
Proof.
  intros Hp.
  assert (Hne : p ≠ builtin_default F_retriever_provider).
  { intros ->. apply Hp. unfold IndexConfiguration.retriever_provider_Literal.
    simpl. set_solver. }
  split_and!.
  - eexists. apply index_new_eq.
  - eexists. apply config_new_eq.
  - rewrite index_field_retriever_provider.
    cbn [IndexConfiguration.with_retriever_provider
         IndexConfiguration.retriever_provider].
    by rewrite precedence_by_value_kept.
  - rewrite_env_field F_retriever_provider.
    cbn [Configuration.with_retriever_provider
         Configuration.retriever_provider].
    by rewrite precedence_by_value_kept.
  - rewrite index_field_retriever_provider.
    by rewrite lookup_insert_eq.
  - rewrite_env_field F_retriever_provider.
    by rewrite lookup_insert_eq.
Qed.

Lemma construction_never_raises_witness :
  (∃ self, IndexConfiguration.new test_environ IndexConfiguration.no_kwargs
           = inr self) ∧
  (∃ self, Configuration.new test_prompts test_environ test_kwargs = inr self) ∧
  field "retriever_provider"
    (IndexConfiguration.new test_environ
       (IndexConfiguration.with_retriever_provider (Some (VStr "chroma"))
          IndexConfiguration.no_kwargs)) =
    Some (VStr "chroma") ∧
  field "retriever_provider"
    (Configuration.new test_prompts test_environ
       (Configuration.with_retriever_provider (Some (VStr "chroma")) test_kwargs)) =
    Some (VStr "chroma") ∧
  field "retriever_provider"
    (IndexConfiguration.new (<["RETRIEVER_PROVIDER" := "chroma"]> test_environ)
       (IndexConfiguration.with_retriever_provider None
          IndexConfiguration.no_kwargs)) =
    Some (VStr "chroma") ∧
  field "retriever_provider"
    (Configuration.new test_prompts
       (<["RETRIEVER_PROVIDER" := "chroma"]> test_environ)
       (Configuration.with_retriever_provider None test_kwargs)) =
    Some (VStr "chroma").
Proof.
  apply (construction_never_raises test_prompts test_environ
           IndexConfiguration.no_kwargs test_kwargs "chroma").
  unfold IndexConfiguration.retriever_provider_Literal.
  rewrite !elem_of_cons, elem_of_nil.
  intros [H|[H|[H|[H|[]]]]]; discriminate H.
Defined.

(** The subclass pass is the base pass followed by two steps that name
    only [response_model] and [query_model]: whatever keywords the subclass
    receives, the inherited fields end as the base class alone leaves them. *)
Lemma config_agrees_with_base prompts environ kw name :
  name ≠ "query_model" → name ≠ "query_system_prompt" →
  name ≠ "response_model" → name ≠ "response_system_prompt" →
  field name (Configuration.new prompts environ kw) =
  field name (IndexConfiguration.new environ (Configuration.base kw)).
Proof.
  intros H1 H2 H3 H4. rewrite config_new_eq, index_new_eq. simpl.
  unfold config_object, index_object.
  rewrite lookup_config_defaulted_other by done.
  apply lookup_index_defaulted_congr.
  by apply lookup_config_fields_base.
Qed.

(** C10. For every environment and every choice of the base keywords,
    [Configuration] built from them holds the same [user_id],
    [embedding_model] and [retriever_provider] as [IndexConfiguration] built
    from them. *)
Theorem subclass_agrees_with_base prompts environ ikw :
  field "user_id" (Configuration.new prompts environ (Configuration.of_base ikw)) =
    field "user_id" (IndexConfiguration.new environ ikw) ∧
  field "embedding_model"
    (Configuration.new prompts environ (Configuration.of_base ikw)) =
    field "embedding_model" (IndexConfiguration.new environ ikw) ∧
  field "retriever_provider"
    (Configuration.new prompts environ (Configuration.of_base ikw)) =
    field "retriever_provider" (IndexConfiguration.new environ ikw).
Proof.
  assert (Hb : Configuration.base (Configuration.of_base ikw) = ikw)
    by by destruct ikw.
  split_and!; rewrite config_agrees_with_base by names_differ; by rewrite Hb.
Qed.

(** C6, as worded, does not hold: with [EMBEDDING_MODEL] set, passing
    [embedding_model] with the string that is also its default ends with the
    environment's value in the field, not with the value passed. *)
Lemma supplied_default_literal_loses_to_environment :
  field "embedding_model"
    (Configuration.new test_prompts test_environ default_literal_kwargs) =
    Some (VStr "cohere/embed-english-v3.0") ∧
  kwarg F_embedding_model default_literal_kwargs =
    Some (VStr "openai/text-embedding-3-small") ∧
  ¬ follows_precedence test_prompts test_environ default_literal_kwargs.
Proof.
  split_and!; [reflexivity | reflexivity |].
  intros [Hf _]. specialize (Hf F_embedding_model).
  vm_compute in Hf. discriminate Hf.
Qed.

(** C6, amended.  After any construction of [Configuration] every
    environment-bound field holds the keyword passed when that value is one
    the defaulting pass keeps (a true [user_id]; for the other four a value
    other than the built-in default literal), otherwise the value of the
    field's environment variable when it is set, otherwise the built-in
    default.  The three fields without a variable hold the keyword passed,
    or the built-in default. *)
Theorem kept_value_then_environment_then_default prompts environ kw :
  (∀ f : EnvField,
     field (attr_name f) (Configuration.new prompts environ kw) =
     Some (precedence_by_value f (kwarg f kw) (environ !! env_var f))) ∧
  field "search_kwargs" (Configuration.new prompts environ kw) =
    Some (precedence (Configuration.search_kwargs kw) None (VDict ∅)) ∧
  field "response_system_prompt" (Configuration.new prompts environ kw) =
    Some (precedence (Configuration.response_system_prompt kw) None
            (VStr (RESPONSE_SYSTEM_PROMPT prompts))) ∧
  field "query_system_prompt" (Configuration.new prompts environ kw) =
    Some (precedence (Configuration.query_system_prompt kw) None
            (VStr (QUERY_SYSTEM_PROMPT prompts))).
Proof.
  split_and!.
  - intros f. apply config_field_env.
  - rewrite config_field_other by names_differ.
    rewrite lookup_config_fields_base by names_differ.
    rewrite lookup_index_fields_search_kwargs.
    cbn [Configuration.base IndexConfiguration.search_kwargs].
    by destruct (Configuration.search_kwargs kw).
  - rewrite config_field_other by names_differ.
    rewrite lookup_config_fields_response_system_prompt.
    by destruct (Configuration.response_system_prompt kw).
  - rewrite config_field_other by names_differ.
    rewrite lookup_config_fields_query_system_prompt.
    by destruct (Configuration.query_system_prompt kw).
Qed.

(** * The defaulting pass on an arbitrary instance *)










Lemma dom_overwrite_if b name w (self : gmap string PyVal) :
  is_Some (self !! name) →
  dom (overwrite_if b name w self) = dom self.
Proof.
  intros Hs. destruct b; simpl; [|done]. by apply dom_insert_lookup_L.
Qed.

Lemma dom_index_defaulted environ u e r (self : gmap string PyVal) :
  is_Some (self !! "user_id") →
  is_Some (self !! "embedding_model") →
  is_Some (self !! "retriever_provider") →
  dom (index_defaulted environ u e r self) = dom self.
Proof.
  intros Hu He Hr. unfold index_defaulted.
  rewrite dom_overwrite_if.
  2:{ by rewrite !lookup_overwrite_if_ne by names_differ. }
  rewrite dom_overwrite_if.
  2:{ by rewrite lookup_overwrite_if_ne by names_differ. }
  by rewrite dom_overwrite_if.
Qed.

Lemma dom_config_defaulted environ rm qm (self : gmap string PyVal) :
  is_Some (self !! "response_model") →
  is_Some (self !! "query_model") →
  dom (config_defaulted environ rm qm self) = dom self.
Proof.
  intros Hrm Hqm. unfold config_defaulted.
  rewrite dom_overwrite_if.
  2:{ by rewrite lookup_overwrite_if_ne by names_differ. }
  by rewrite dom_overwrite_if.
Qed.









(** * Which variables a construction reads *)

Lemma environ_get_agree environ environ' var dflt :
  environ !! var = environ' !! var →
  environ_get environ var dflt = environ_get environ' var dflt.
Proof. intros H. unfold environ_get. by rewrite H. Qed.

(** X5. [IndexConfiguration] reads the environment at [USER_ID],
    [EMBEDDING_MODEL] and [RETRIEVER_PROVIDER] only: two environments that
    agree on these three build the same instance from the same keywords,
    whatever else they contain. *)
Theorem index_reads_three_variables environ environ' kw :
  environ !! "USER_ID" = environ' !! "USER_ID" →
  environ !! "EMBEDDING_MODEL" = environ' !! "EMBEDDING_MODEL" →
  environ !! "RETRIEVER_PROVIDER" = environ' !! "RETRIEVER_PROVIDER" →
  IndexConfiguration.new environ kw = IndexConfiguration.new environ' kw.
Proof.
  intros Hu He Hr. rewrite !index_new_eq. f_equal.
  unfold index_object, index_defaulted.
  by rewrite (environ_get_agree _ _ _ _ Hu), (environ_get_agree _ _ _ _ He),
    (environ_get_agree _ _ _ _ Hr).
Qed.

Lemma index_reads_three_variables_witness :
  IndexConfiguration.new test_environ IndexConfiguration.no_kwargs =
  IndexConfiguration.new (<["RESPONSE_MODEL" := "other/model"]> test_environ)
    IndexConfiguration.no_kwargs.
Proof.
  apply index_reads_three_variables; reflexivity.
Defined.

(** X6. [Configuration] reads the environment at the five variables of
    [env_var] only: two environments that agree on them build the same
    instance from the same keywords. *)
Theorem config_reads_five_variables prompts environ environ' kw :
  (∀ f, environ !! env_var f = environ' !! env_var f) →
  Configuration.new prompts environ kw = Configuration.new prompts environ' kw.
Proof.
  intros H. rewrite !config_new_eq. f_equal.
  unfold config_object, config_defaulted, index_defaulted.
  by rewrite (environ_get_agree _ _ _ _ (H F_user_id)),
    (environ_get_agree _ _ _ _ (H F_embedding_model)),
    (environ_get_agree _ _ _ _ (H F_retriever_provider)),
    (environ_get_agree _ _ _ _ (H F_response_model)),
    (environ_get_agree _ _ _ _ (H F_query_model)).
Qed.

Lemma config_reads_five_variables_witness :
  Configuration.new test_prompts test_environ test_kwargs =
  Configuration.new test_prompts (<["HOME" := "/root"]> test_environ) test_kwargs.
Proof.
  apply config_reads_five_variables. intros f. by destruct f.
Defined.

(** * The shape of a constructed instance *)

Lemma dom_index_fields kw :
  dom (index_fields kw) = list_to_set index_field_names.
Proof.
  unfold index_fields. rewrite !dom_insert_L, dom_empty_L.
  unfold index_field_names. simpl. set_solver.
Qed.

Lemma dom_config_fields prompts kw :
  dom (config_fields prompts kw) = list_to_set config_field_names.
Proof.
  unfold config_fields. rewrite !dom_insert_L, dom_index_fields.
  unfold config_field_names, index_field_names. simpl. set_solver.
Qed.

Lemma dom_index_object environ kw :
  dom (index_object environ kw) = list_to_set index_field_names.
Proof.
  unfold index_object. rewrite dom_index_defaulted.
  - apply dom_index_fields.
  - by rewrite lookup_index_fields_user_id.
  - by rewrite lookup_index_fields_embedding_model.
  - by rewrite lookup_index_fields_retriever_provider.
Qed.

Lemma dom_config_object prompts environ kw :
  dom (config_object prompts environ kw) = list_to_set config_field_names.
Proof.
  unfold config_object.
  rewrite dom_config_defaulted.
  - rewrite dom_index_defaulted; [apply dom_config_fields|..];
      rewrite lookup_config_fields_base by names_differ.
    + by rewrite lookup_index_fields_user_id.
    + by rewrite lookup_index_fields_embedding_model.
    + by rewrite lookup_index_fields_retriever_provider.
  - rewrite lookup_index_defaulted_other by names_differ.
    by rewrite lookup_config_fields_response_model.
  - rewrite lookup_index_defaulted_other by names_differ.
    by rewrite lookup_config_fields_query_model.
Qed.

(** X7. Whatever the keywords and the environment, an [IndexConfiguration]
    has exactly its four declared attributes and a [Configuration] exactly
    its eight: a construction leaves no field unset and adds no attribute of
    its own. *)
Theorem constructed_attributes prompts environ ikw kw :
  (∃ self, IndexConfiguration.new environ ikw = inr self ∧
           dom self = list_to_set index_field_names) ∧
  (∃ self, Configuration.new prompts environ kw = inr self ∧
           dom self = list_to_set config_field_names).
Proof.
  split; eexists; split.
  - apply index_new_eq.
  - apply dom_index_object.
  - apply config_new_eq.
  - apply dom_config_object.
Qed.

(** * Building an instance again from its own fields *)

(** A value the rule returned is returned again when it is passed back. *)
Lemma precedence_by_value_idem f o env_value :
  precedence_by_value f (Some (precedence_by_value f o env_value)) env_value =
  precedence_by_value f o env_value.
Proof.
  assert (Hd : ∀ d, (if kept f d then d else d) = d)
    by (intros d; by destruct (kept f d)).
  unfold precedence_by_value. destruct o as [v|]; [|apply Hd].
  destruct (kept f v) eqn:Hk; [by rewrite Hk | apply Hd].
Qed.

Lemma lookup_index_object_search_kwargs environ kw :
  index_object environ kw !! "search_kwargs" =
  Some (default (VDict ∅) (IndexConfiguration.search_kwargs kw)).
Proof.
  unfold index_object. rewrite lookup_index_defaulted_other by names_differ.
  apply lookup_index_fields_search_kwargs.
Qed.

Lemma lookup_index_object_user_id environ kw :
  index_object environ kw !! "user_id" =
  Some (precedence_by_value F_user_id (IndexConfiguration.user_id kw)
          (environ !! "USER_ID")).
Proof. rewrite <- index_field_user_id. by rewrite index_new_eq. Qed.

Lemma lookup_index_object_embedding_model environ kw :
  index_object environ kw !! "embedding_model" =
  Some (precedence_by_value F_embedding_model
          (IndexConfiguration.embedding_model kw)
          (environ !! "EMBEDDING_MODEL")).
Proof. rewrite <- index_field_embedding_model. by rewrite index_new_eq. Qed.

Lemma lookup_index_object_retriever_provider environ kw :
  index_object environ kw !! "retriever_provider" =
  Some (precedence_by_value F_retriever_provider
          (IndexConfiguration.retriever_provider kw)
          (environ !! "RETRIEVER_PROVIDER")).
Proof. rewrite <- index_field_retriever_provider. by rewrite index_new_eq. Qed.

Lemma index_object_rebuilt environ kw :
  index_object environ (index_kwargs_of (index_object environ kw)) =
  index_object environ kw.
Proof.
  apply map_eq. intros name.
  destruct (decide (name ∈ index_field_names)) as [Hin|Hout].
  - unfold index_field_names in Hin.
    rewrite !elem_of_cons, elem_of_nil in Hin.
    destruct Hin as [->|[->|[->|[->|[]]]]].
    + rewrite !lookup_index_object_user_id.
      cbn [index_kwargs_of IndexConfiguration.user_id].
      by rewrite lookup_index_object_user_id, precedence_by_value_idem.
    + rewrite !lookup_index_object_embedding_model.
      cbn [index_kwargs_of IndexConfiguration.embedding_model].
      by rewrite lookup_index_object_embedding_model, precedence_by_value_idem.
    + rewrite !lookup_index_object_retriever_provider.
      cbn [index_kwargs_of IndexConfiguration.retriever_provider].
      by rewrite lookup_index_object_retriever_provider, precedence_by_value_idem.
    + rewrite !lookup_index_object_search_kwargs.
      cbn [index_kwargs_of IndexConfiguration.search_kwargs].
      by rewrite lookup_index_object_search_kwargs.
  - assert (Hd : ∀ kw', index_object environ kw' !! name = None).
    { intros kw'. apply not_elem_of_dom. rewrite dom_index_object.
      by rewrite elem_of_list_to_set. }
    by rewrite !Hd.
Qed.

Lemma lookup_config_object_unbound prompts environ kw :
  config_object prompts environ kw !! "search_kwargs" =
    Some (default (VDict ∅) (Configuration.search_kwargs kw)) ∧
  config_object prompts environ kw !! "response_system_prompt" =
    Some (default (VStr (RESPONSE_SYSTEM_PROMPT prompts))
            (Configuration.response_system_prompt kw)) ∧
  config_object prompts environ kw !! "query_system_prompt" =
    Some (default (VStr (QUERY_SYSTEM_PROMPT prompts))
            (Configuration.query_system_prompt kw)).
Proof.
  rewrite !config_object_other by names_differ.
  rewrite lookup_config_fields_response_system_prompt,
    lookup_config_fields_query_system_prompt.
  rewrite lookup_config_fields_base by names_differ.
  by rewrite lookup_index_fields_search_kwargs.
Qed.

Lemma config_object_rebuilt prompts environ kw :
  config_object prompts environ
    (config_kwargs_of (config_object prompts environ kw)) =
  config_object prompts environ kw.
Proof.
  pose proof (lookup_config_object_unbound prompts environ kw) as (Hs & Hr & Hq).
  pose proof (config_object_env_field prompts environ kw) as Hf.
  set (obj := config_object prompts environ kw) in *.
  pose proof (lookup_config_object_unbound prompts environ
                (config_kwargs_of obj)) as (Hs' & Hr' & Hq').
  pose proof (config_object_env_field prompts environ
                (config_kwargs_of obj)) as Hf'.
  assert (Hidem : ∀ f,
    config_object prompts environ (config_kwargs_of obj) !! attr_name f =
    obj !! attr_name f).
  { intros f. rewrite Hf'.
    replace (kwarg f (config_kwargs_of obj)) with (obj !! attr_name f)
      by (by destruct f).
    by rewrite Hf, precedence_by_value_idem. }
  cbn [config_kwargs_of Configuration.search_kwargs
       Configuration.response_system_prompt
       Configuration.query_system_prompt] in Hs', Hr', Hq'.
  rewrite Hs in Hs'. rewrite Hr in Hr'. rewrite Hq in Hq'.
  apply map_eq. intros name.
  destruct (decide (name ∈ config_field_names)) as [Hin|Hout].
  - unfold config_field_names, index_field_names in Hin. simpl in Hin.
    rewrite !elem_of_cons, elem_of_nil in Hin.
    destruct Hin as [->|[->|[->|[->|[->|[->|[->|[->|[]]]]]]]]].
    + apply (Hidem F_user_id).
    + apply (Hidem F_embedding_model).
    + apply (Hidem F_retriever_provider).
    + by rewrite Hs', Hs.
    + by rewrite Hr', Hr.
    + apply (Hidem F_response_model).
    + by rewrite Hq', Hq.
    + apply (Hidem F_query_model).
  - assert (Hd : ∀ kw', config_object prompts environ kw' !! name = None).
    { intros kw'. apply not_elem_of_dom. rewrite dom_config_object.
      by rewrite elem_of_list_to_set. }
    unfold obj. by rewrite !Hd.
Qed.

(** X8. Passing every field of a constructed instance back as keywords,
    in the same environment, builds that instance again; in particular no
    field that an explicit value or the environment had set reverts. *)
Theorem rebuild_from_fields prompts environ ikw kw self obj :
  IndexConfiguration.new environ ikw = inr self →
  Configuration.new prompts environ kw = inr obj →
  IndexConfiguration.new environ (index_kwargs_of self) = inr self ∧
  Configuration.new prompts environ (config_kwargs_of obj) = inr obj.
Proof.
  rewrite index_new_eq, config_new_eq. intros [= <-] [= <-].
  rewrite index_new_eq, config_new_eq.
  by rewrite index_object_rebuilt, config_object_rebuilt.
Qed.

Lemma rebuild_from_fields_witness :
  IndexConfiguration.new test_environ
    (index_kwargs_of (index_object test_environ IndexConfiguration.no_kwargs)) =
    inr (index_object test_environ IndexConfiguration.no_kwargs) ∧
  Configuration.new test_prompts test_environ
    (config_kwargs_of
       (config_object test_prompts test_environ default_literal_kwargs)) =
    inr (config_object test_prompts test_environ default_literal_kwargs).
Proof.
  apply (rebuild_from_fields test_prompts test_environ
           IndexConfiguration.no_kwargs default_literal_kwargs);
    reflexivity.
Defined.

(** * What kind of value a field ends with *)

Lemma precedence_by_value_provider o env_value :
  (∀ v, o = Some v → is_provider v = true) →
  (∀ x, env_value = Some x → x ∈ IndexConfiguration.retriever_provider_Literal) →
  ∃ p, precedence_by_value F_retriever_provider o env_value = VStr p ∧
       p ∈ IndexConfiguration.retriever_provider_Literal.
Proof.
  intros Ho He.
  assert (Hd : ∃ p, precedence None env_value (VStr "elastic") = VStr p ∧
                    p ∈ IndexConfiguration.retriever_provider_Literal).
  { destruct env_value as [x|]; simpl.
    - exists x. split; [done|]. by apply He.
    - exists "elastic". split; [done|].
      unfold IndexConfiguration.retriever_provider_Literal. set_solver. }
  unfold precedence_by_value. destruct o as [v|]; [|exact Hd].
  destruct (kept F_retriever_provider v); [|exact Hd].
  specialize (Ho v eq_refl). destruct v as [| | |s|]; try done.
  exists s. split; [done|]. by apply bool_decide_eq_true in Ho.
Qed.

(** X9. When the [retriever_provider] keyword is omitted or a string of
    the annotated enumeration, and [RETRIEVER_PROVIDER] is unset or a string
    of the enumeration, the constructed [retriever_provider] is a string of
    the enumeration, in both classes. *)
Theorem retriever_provider_stays_in_enumeration prompts environ ikw kw :
  (∀ v, IndexConfiguration.retriever_provider ikw = Some v → is_provider v = true) →
  (∀ v, Configuration.retriever_provider kw = Some v → is_provider v = true) →
  (∀ x, environ !! "RETRIEVER_PROVIDER" = Some x →
        x ∈ IndexConfiguration.retriever_provider_Literal) →
  (∃ p, field "retriever_provider" (IndexConfiguration.new environ ikw) =
          Some (VStr p) ∧
        p ∈ IndexConfiguration.retriever_provider_Literal) ∧
  (∃ p, field "retriever_provider" (Configuration.new prompts environ kw) =
          Some (VStr p) ∧
        p ∈ IndexConfiguration.retriever_provider_Literal).
Proof.
  intros Hi Hk He. split.
  - destruct (precedence_by_value_provider _ _ Hi He) as (p & Hp & Hin).
    exists p. split; [|done].
    by rewrite index_field_retriever_provider, Hp.
  - destruct (precedence_by_value_provider _ _ Hk He) as (p & Hp & Hin).
    exists p. split; [|done].
    rewrite_env_field F_retriever_provider. by rewrite Hp.
Qed.

Lemma retriever_provider_stays_in_enumeration_witness :
  (∃ p, field "retriever_provider"
          (IndexConfiguration.new test_environ IndexConfiguration.no_kwargs) =
          Some (VStr p) ∧
        p ∈ IndexConfiguration.retriever_provider_Literal) ∧
  (∃ p, field "retriever_provider"
          (Configuration.new test_prompts test_environ test_kwargs) =
          Some (VStr p) ∧
        p ∈ IndexConfiguration.retriever_provider_Literal).
Proof.
  apply (retriever_provider_stays_in_enumeration test_prompts test_environ
           IndexConfiguration.no_kwargs test_kwargs).
  - intros v Hv. discriminate Hv.
  - intros v Hv. injection Hv as <-. reflexivity.
  - intros x Hx. vm_compute in Hx. injection Hx as <-.
    unfold IndexConfiguration.retriever_provider_Literal.
    rewrite !elem_of_cons. auto.
Defined.

(** X10. With [USER_ID] set to a non-empty string, the [user_id] of a
    constructed instance is never empty or otherwise false, whatever was
    passed for it: [None], [""], [0], [False] and an empty mapping all give
    way to the environment's value. *)
Theorem user_id_true_when_environment_has_one prompts environ ikw kw x :
  environ !! "USER_ID" = Some x → x ≠ "" →
  (∃ v, field "user_id" (IndexConfiguration.new environ ikw) = Some v ∧
        truthy v = true) ∧
  (∃ v, field "user_id" (Configuration.new prompts environ kw) = Some v ∧
        truthy v = true).
Proof.
  intros Hx Hne.
  assert (Ht : ∀ o, truthy (precedence_by_value F_user_id o (Some x)) = true).
  { intros o. unfold precedence_by_value.
    assert (Hxt : truthy (VStr x) = true).
    { simpl. apply negb_true_iff. by apply String.eqb_neq. }
    destruct o as [v|]; [|exact Hxt].
    simpl. destruct (truthy v) eqn:Hv; [exact Hv | exact Hxt]. }
  split; eexists; split.
  - rewrite index_field_user_id, Hx. reflexivity.
  - apply Ht.
  - rewrite_env_field F_user_id. rewrite Hx. reflexivity.
  - apply Ht.
Qed.

Lemma user_id_true_when_environment_has_one_witness :
  (∃ v, field "user_id"
          (IndexConfiguration.new test_environ
             (IndexConfiguration.with_user_id (Some VNone)
                IndexConfiguration.no_kwargs)) = Some v ∧
        truthy v = true) ∧
  (∃ v, field "user_id"
          (Configuration.new test_prompts test_environ
             (Configuration.with_user_id (Some (VInt 0)) test_kwargs)) = Some v ∧
        truthy v = true).
Proof.
  apply (user_id_true_when_environment_has_one test_prompts test_environ
           _ _ "env_user"); [reflexivity | discriminate].
Defined.

(** X11. When every keyword passed for an environment-bound field is a
    string, each of the five fields of the constructed [Configuration] is a
    string: the defaulting pass only ever stores strings. *)
Theorem string_fields_stay_strings prompts environ kw :
  (∀ f v, kwarg f kw = Some v → is_str v = true) →
  ∀ f, ∃ s, field (attr_name f) (Configuration.new prompts environ kw) =
            Some (VStr s).
Proof.
  intros Hstr f. rewrite config_field_env.
  assert (Hd : ∃ s, precedence None (environ !! env_var f)
                      (VStr (builtin_default f)) = VStr s).
  { destruct (environ !! env_var f) as [x|]; simpl; eauto. }
  unfold precedence_by_value.
  destruct (kwarg f kw) as [v|] eqn:Hv.
  - destruct (kept f v).
    + specialize (Hstr f v Hv). destruct v; try done. eauto.
    + destruct Hd as [s ->]. eauto.
  - destruct Hd as [s ->]. eauto.
Qed.

Lemma string_fields_stay_strings_witness :
  ∃ s, field "response_model"
         (Configuration.new test_prompts test_environ test_kwargs) =
       Some (VStr s).
Proof.
  refine (string_fields_stay_strings test_prompts test_environ test_kwargs
            _ F_response_model).
  intros f v Hv. destruct f; injection Hv as <-; reflexivity.
Defined.

(** * The unit tests *)

Lemma lookup_patch_dict values environ key x :
  values !! key = Some x → patch_dict values environ !! key = Some x.
Proof. intros Hx. unfold patch_dict. by apply lookup_union_Some_l. Qed.

Lemma lookup_patch_dict_None values environ key :
  values !! key = None → patch_dict values environ !! key = environ !! key.
Proof. intros Hx. unfold patch_dict. by apply lookup_union_r. Qed.

(** An assertion on an environment-bound field compares what the
    precedence rule gives. *)
Lemma assert_config_field prompts environ kw f lit :
  assert_field_eq (Configuration.new prompts environ kw) (attr_name f) lit =
  str_eq (precedence_by_value f (kwarg f kw) (environ !! env_var f)) lit.
Proof. unfold assert_field_eq. by rewrite config_field_env. Qed.

Lemma assert_index_user_id environ kw lit :
  assert_field_eq (IndexConfiguration.new environ kw) "user_id" lit =
  str_eq (precedence_by_value F_user_id (IndexConfiguration.user_id kw)
            (environ !! "USER_ID")) lit.
Proof. unfold assert_field_eq. by rewrite index_field_user_id. Qed.

Lemma assert_index_embedding_model environ kw lit :
  assert_field_eq (IndexConfiguration.new environ kw) "embedding_model" lit =
  str_eq (precedence_by_value F_embedding_model
            (IndexConfiguration.embedding_model kw)
            (environ !! "EMBEDDING_MODEL")) lit.
Proof. unfold assert_field_eq. by rewrite index_field_embedding_model. Qed.

Lemma assert_index_retriever_provider environ kw lit :
  assert_field_eq (IndexConfiguration.new environ kw) "retriever_provider" lit =
  str_eq (precedence_by_value F_retriever_provider
            (IndexConfiguration.retriever_provider kw)
            (environ !! "RETRIEVER_PROVIDER")) lit.
Proof. unfold assert_field_eq. by rewrite index_field_retriever_provider. Qed.

(** Rewrite every assertion of a test on a [Configuration]. *)
Ltac rewrite_assertions :=
  rewrite (assert_config_field _ _ _ F_user_id),
    (assert_config_field _ _ _ F_embedding_model),
    (assert_config_field _ _ _ F_retriever_provider),
    (assert_config_field _ _ _ F_response_model),
    (assert_config_field _ _ _ F_query_model);
  cbn [kwarg env_var].

(** X12. Four of the five unit tests pass whatever environment the test
    process runs in: the two that patch the environment, because the patch
    sets every variable the construction reads, and the two that pass all
    five fields, because the values passed differ from the defaults. *)
Theorem tests_independent_of_ambient_environment prompts environ :
  test_configuration.test_configuration_with_values prompts environ = true ∧
  test_configuration.test_configuration_post_init_with_env_vars
    prompts environ = true ∧
  test_configuration.test_configuration_post_init_explicit_values_override_env
    prompts environ = true ∧
  test_configuration.test_index_configuration_post_init environ = true.
Proof.
  split_and!.
  - unfold test_configuration.test_configuration_with_values.
    rewrite_assertions. cbn [Configuration.user_id Configuration.embedding_model
      Configuration.retriever_provider Configuration.response_model
      Configuration.query_model].
    by rewrite !precedence_by_value_kept by discriminate.
  - unfold test_configuration.test_configuration_post_init_with_env_vars.
    rewrite_assertions.
    by rewrite (lookup_patch_dict test_environ environ "USER_ID" _ eq_refl),
      (lookup_patch_dict test_environ environ "EMBEDDING_MODEL" _ eq_refl),
      (lookup_patch_dict test_environ environ "RETRIEVER_PROVIDER" _ eq_refl),
      (lookup_patch_dict test_environ environ "RESPONSE_MODEL" _ eq_refl),
      (lookup_patch_dict test_environ environ "QUERY_MODEL" _ eq_refl).
  - unfold
      test_configuration.test_configuration_post_init_explicit_values_override_env.
    rewrite_assertions. unfold test_kwargs.
    cbn [Configuration.user_id Configuration.embedding_model
      Configuration.retriever_provider Configuration.response_model
      Configuration.query_model].
    by rewrite !precedence_by_value_kept by discriminate.
  - unfold test_configuration.test_index_configuration_post_init.
    rewrite assert_index_user_id, assert_index_embedding_model,
      assert_index_retriever_provider.
    erewrite (lookup_patch_dict _ environ "USER_ID"); [|reflexivity].
    erewrite (lookup_patch_dict _ environ "EMBEDDING_MODEL"); [|reflexivity].
    erewrite (lookup_patch_dict _ environ "RETRIEVER_PROVIDER"); [|reflexivity].
    reflexivity.
Qed.

(** An assertion that a field built with no keyword has its default holds
    exactly when the field's variable does not say otherwise. *)
Lemma assert_default_iff prompts environ f :
  assert_field_eq (Configuration.new prompts environ Configuration.no_kwargs)
    (attr_name f) (builtin_default f) = true ↔
  (environ !! env_var f = None ∨
   environ !! env_var f = Some (builtin_default f)).
Proof.
  rewrite assert_config_field.
  replace (kwarg f Configuration.no_kwargs) with (@None PyVal)
    by (by destruct f).
  unfold precedence_by_value, precedence.
  destruct (environ !! env_var f) as [x|]; simpl.
  - rewrite String.eqb_eq. split.
    + intros ->. by right.
    + intros [H|H]; [done | by simplify_eq].
  - rewrite String.eqb_refl. split; [by left | done].
Qed.

(** X13. [test_configuration_defaults] patches nothing, so it depends on
    the environment of the test process: it passes exactly when each of the
    five variables is unset or set to the field's built-in default. *)
Theorem defaults_test_depends_on_ambient_environment prompts environ :
  test_configuration.test_configuration_defaults prompts environ = true ↔
  ∀ f, environ !! env_var f = None ∨
       environ !! env_var f = Some (builtin_default f).
Proof.
  unfold test_configuration.test_configuration_defaults.
  rewrite !andb_true_iff.
  rewrite (assert_default_iff prompts environ F_user_id),
    (assert_default_iff prompts environ F_embedding_model),
    (assert_default_iff prompts environ F_retriever_provider),
    (assert_default_iff prompts environ F_response_model),
    (assert_default_iff prompts environ F_query_model).
  split.
  - intros ((((H1 & H2) & H3) & H4) & H5) f. by destruct f.
  - intros H. split_and!; apply H.
Qed.

(** The test fails as soon as one variable is set to another value. *)
Lemma defaults_test_depends_on_ambient_environment_witness :
  test_configuration.test_configuration_defaults test_prompts
    (<["HOME" := "/root"]> (<["RETRIEVER_PROVIDER" := "elastic"]> ∅)) = true ∧
  test_configuration.test_configuration_defaults test_prompts
    (<["USER_ID" := "someone"]> ∅) ≠ true.
Proof.
  split.
  - apply (defaults_test_depends_on_ambient_environment test_prompts).
    intros f. destruct f; vm_compute; auto.
  - intros H.
    pose proof (proj1 (defaults_test_depends_on_ambient_environment
                         test_prompts _) H F_user_id) as [H'|H'];
      vm_compute in H'; discriminate H'.
Defined.

(** * Values that are not strings *)

(** X14. A value that is not a string ([None], a number, a mapping), passed
    for [embedding_model], [retriever_provider], [response_model] or
    [query_model], is stored as it is: it does not compare equal to the
    default literal, so neither the environment nor the default replaces it
    and nothing rejects it.  Only [user_id] treats such a value, when it is
    false, as missing. *)
Theorem non_string_keyword_is_kept prompts environ kw f v :
  f ≠ F_user_id →
  kwarg f kw = Some v →
  is_str v = false →
  field (attr_name f) (Configuration.new prompts environ kw) = Some v.
Proof.
  intros Hf Hv Hs. rewrite config_field_env, Hv.
  unfold precedence_by_value.
  assert (Hk : kept f v = true).
  { destruct f; [done|..]; by destruct v. }
  by rewrite Hk.
Qed.

Lemma non_string_keyword_is_kept_witness :
  field "embedding_model"
    (Configuration.new test_prompts test_environ
       {| Configuration.user_id := Some VNone;
          Configuration.embedding_model := Some VNone;
          Configuration.retriever_provider := None;
          Configuration.search_kwargs := None;
          Configuration.response_system_prompt := None;
          Configuration.response_model := None;
          Configuration.query_system_prompt := None;
          Configuration.query_model := None |}) = Some VNone.
Proof.
  apply (non_string_keyword_is_kept test_prompts test_environ _
           F_embedding_model VNone); [discriminate | reflexivity..].
Defined.
